(** * remove_system_health.py: the schema line filter

    A shallow embedding of [remove_system_health_components] from
    [src/remove_system_health.py], and the properties of the single pass it
    makes over the lines of [shared/schema.ts].

    The file read ([f.readlines()]) and the file write
    ([f.writelines(fixed_lines)]) are the boundary: the embedding is the
    function from the list of lines read to the list of lines written.  The
    [while] loop is kept as the source has it, with its five loop-carried
    variables in a record and the index [i] into [lines]. *)

From Stdlib Require Import String Ascii List Bool Arith Lia.
Import ListNotations.
Open Scope string_scope.

Set Implicit Arguments.

(* ------------------------------------------------------------------------- *)
(** ** Strings *)

(** Python's [pat in s] on [str]: [pat] occurs in [s] as a contiguous
    substring. *)
Fixpoint str_in (pat s : string) : bool :=
  if String.prefix pat s then true
  else match s with
       | EmptyString => false
       | String _ s' => str_in pat s'
       end.

(** The line feed of the f-string [f"{section_replacement}\n"]. *)
Definition LF : string := String (ascii_of_nat 10) EmptyString.

(* ------------------------------------------------------------------------- *)
(** ** The hard-coded configuration (lines 13-59 of the source) *)

Definition skip_sections : list (string * string * string) :=
  [ ("processImpactLevelEnum", "[", ");");
    ("processes = pgTable", "{", "});");
    ("metrics = pgTable", "{", "});");
    ("metricValues = pgTable", "{", "});");
    ("riskScores = pgTable", "{", "});");
    ("alertRules = pgTable", "{", "});");
    ("alerts = pgTable", "{", "});");
    ("alertConfigurations = pgTable", "{", "});");
    ("alertHistory = pgTable", "{", "});");
    ("healthScoreHistory = pgTable", "{", "});");
    ("insertProcessSchema =", "createInsertSchema", "});");
    ("insertMetricSchema =", "createInsertSchema", "});");
    ("insertMetricValueSchema =", "createInsertSchema", "});");
    ("insertRiskScoreSchema =", "createInsertSchema", "});");
    ("insertAlertRuleSchema =", "createInsertSchema", "});");
    ("insertAlertSchema =", "createInsertSchema", "});");
    ("insertAlertConfigurationSchema =", "createInsertSchema", "});");
    ("insertHealthScoreHistorySchema =", "createInsertSchema", "});") ].

Definition type_removals : list string :=
  [ "export type Process =";
    "export type InsertProcess =";
    "export type Metric =";
    "export type InsertMetric =";
    "export type MetricValue =";
    "export type InsertMetricValue =";
    "export type RiskScore =";
    "export type InsertRiskScore =";
    "export type AlertRule =";
    "export type InsertAlertRule =";
    "export type Alert =";
    "export type InsertAlert =";
    "export type AlertConfiguration =";
    "export type InsertAlertConfiguration =";
    "export type AlertHistoryEntry =";
    "export type HealthScoreHistoryEntry =";
    "export type InsertHealthScoreHistoryEntry =" ].

Definition relations_sections : list (string * string) :=
  [ ("// Relations for Risk-Based Analysis & Process Monitoring Module",
     "// Relations for Customer Feedback & Complaints") ].

(** The literal of the duplicate guard, written twice in the source
    (lines 69 and 72). *)
Definition complaints_marker : string := "complaints = pgTable".

(* ------------------------------------------------------------------------- *)
(** ** Results *)

(** The two exceptions the loop body could raise: [lines[i]] out of range,
    and [None in line] (the left operand of [in] must be a string). *)
Inductive exn : Type :=
| IndexError
| TypeError.

Inductive result (A : Type) : Type :=
| Ok (a : A)
| Raise (e : exn).

Arguments Ok {A} a.
Arguments Raise {A} e.

Definition result_map {A B : Type} (f : A -> B) (r : result A) : result B :=
  match r with
  | Ok a => Ok (f a)
  | Raise e => Raise e
  end.

(* ------------------------------------------------------------------------- *)
(** ** The loop state *)

(** The variables the [while] loop reads and writes (lines 9-10, 62-64). *)
Record state : Type := mkState {
  i : nat;
  skipping : bool;
  current_section_end : option string;
  skip_next_complaints : bool;
  fixed_lines : list string
}.

(** [i += 1] *)
Definition advance (st : state) : state :=
  mkState (S (i st)) (skipping st) (current_section_end st)
          (skip_next_complaints st) (fixed_lines st).

(** [fixed_lines.append(l)] *)
Definition append (l : string) (st : state) : state :=
  mkState (i st) (skipping st) (current_section_end st)
          (skip_next_complaints st) (fixed_lines st ++ [l])%list.

(** [skip_next_complaints = True] *)
Definition set_skip_next_complaints (st : state) : state :=
  mkState (i st) (skipping st) (current_section_end st) true (fixed_lines st).

(** [skipping = True; current_section_end = section_end] *)
Definition enter_section (section_end : string) (st : state) : state :=
  mkState (i st) true (Some section_end)
          (skip_next_complaints st) (fixed_lines st).

(** [skipping = False; current_section_end = None] *)
Definition leave_section (st : state) : state :=
  mkState (i st) false None (skip_next_complaints st) (fixed_lines st).

(** The values before the loop (lines 9-10 and 62-64). *)
Definition initial_state : state := mkState 0 false None false [].

(* ------------------------------------------------------------------------- *)
(** ** The loop body (lines 66-112) *)

(** Lines 79-83.  The [continue] of line 83 is inside the [for] over
    [relations_sections], so it continues that [for], not the [while]: after
    the [for] the body goes on with the same [line] and the incremented
    [i]. *)
Definition replace_headers (line : string) (st : state) : state :=
  fold_left
    (fun st (pair : string * string) =>
       let (section_start, section_replacement) := pair in
       if str_in section_start line
       then advance (append (section_replacement ++ LF) st)
       else st)
    relations_sections st.

(** Lines 86-90: the flag [skip_type] after the [for] with [break]. *)
Definition skip_type (line : string) : bool :=
  existsb (fun type_removal => str_in type_removal line) type_removals.

(** Lines 98-99: the first triple of [skip_sections] whose name and start
    both occur in the line, if any (the [for] stops there with [break]). *)
Definition find_section (line : string) : option (string * string * string) :=
  find (fun rule : string * string * string =>
          let '(section_name, section_start, _) := rule in
          str_in section_name line && str_in section_start line)
       skip_sections.

(** One iteration, from [line = lines[i]] on. *)
Definition body_line (line : string) (st : state) : result state :=
  if str_in complaints_marker line && skip_next_complaints st then
    Ok (advance st)
  else if str_in complaints_marker line then
    Ok (advance (append line (set_skip_next_complaints st)))
  else
    let st := replace_headers line st in
    if skip_type line then
      Ok (advance st)
    else if negb (skipping st) then
      match find_section line with
      | Some (_, _, section_end) => Ok (advance (enter_section section_end st))
      | None => Ok (advance (append line st))
      end
    else
      match current_section_end st with
      | Some section_end =>
          Ok (advance (if str_in section_end line then leave_section st else st))
      | None => Raise TypeError
      end.

(** One iteration of the [while], entered when [i < len(lines)]. *)
Definition body (lines : list string) (st : state) : result state :=
  match nth_error lines (i st) with
  | Some line => body_line line st
  | None => Raise IndexError
  end.

(* ------------------------------------------------------------------------- *)
(** ** The loop and the pass *)

(** [while i < len(lines): body].  [fuel] bounds the number of iterations;
    [None] means the bound was reached with the guard still true. *)
Fixpoint while_loop (fuel : nat) (lines : list string) (st : state)
  : option (result state) :=
  if Nat.ltb (i st) (length lines) then
    match fuel with
    | 0 => None
    | S fuel' =>
        match body lines st with
        | Ok st' => while_loop fuel' lines st'
        | Raise e => Some (Raise e)
        end
    end
  else Some (Ok st).

(** The loop from a given state, with one unit of fuel for every index that
    is still ahead. *)
Definition run_loop (lines : list string) (st : state) : option (result state) :=
  while_loop (length lines - i st) lines st.

(** The pass: the lines read in, the lines written out. *)
Definition remove_system_health_components (lines : list string)
  : option (result (list string)) :=
  option_map (result_map fixed_lines) (run_loop lines initial_state).

(* ------------------------------------------------------------------------- *)
(** ** Line predicates used in the statements *)

Definition has_marker (line : string) : bool := str_in complaints_marker line.

Definition has_header (line : string) : bool :=
  existsb (fun pair : string * string => str_in (fst pair) line)
          relations_sections.

(** The text appended for the one pair of [relations_sections]. *)
Definition replacement_line : string :=
  "// Relations for Customer Feedback & Complaints" ++ LF.

(** A line with the old header text and nothing else. *)
Definition header_line : string :=
  "// Relations for Risk-Based Analysis & Process Monitoring Module" ++ LF.

(** A line that none of the four rule families touches. *)
Definition no_rule_matches (line : string) : bool :=
  negb (has_marker line) && negb (has_header line)
  && negb (skip_type line)
  && match find_section line with Some _ => false | None => true end.

(** In a state the loop can be in, [skipping] is set only together with a
    recorded [current_section_end]. *)
Definition well_formed (st : state) : Prop :=
  skipping st = true -> exists section_end, current_section_end st = Some section_end.

(* ------------------------------------------------------------------------- *)
(** ** The branches of an iteration; input against output *)

(** The six outcomes of one iteration in a well-formed state, one for each
    branch of the body that does not raise. *)
Inductive iteration (line : string) (st : state) : state -> Prop :=
| it_duplicate :
    has_marker line = true -> skip_next_complaints st = true ->
    iteration line st (advance st)
| it_first :
    has_marker line = true -> skip_next_complaints st = false ->
    iteration line st (advance (append line (set_skip_next_complaints st)))
| it_type :
    has_marker line = false -> skip_type line = true ->
    iteration line st (advance (replace_headers line st))
| it_enter : forall section_name section_start section_end,
    has_marker line = false -> skip_type line = false ->
    skipping st = false ->
    find_section line = Some (section_name, section_start, section_end) ->
    iteration line st
      (advance (enter_section section_end (replace_headers line st)))
| it_keep :
    has_marker line = false -> skip_type line = false ->
    skipping st = false -> find_section line = None ->
    iteration line st (advance (append line (replace_headers line st)))
| it_inside : forall section_end,
    has_marker line = false -> skip_type line = false ->
    skipping st = true -> current_section_end st = Some section_end ->
    iteration line st
      (advance (if str_in section_end line
                then leave_section (replace_headers line st)
                else replace_headers line st)).

(** [kept_in_order input output]: [output] is [input] with some lines
    deleted, the others left as they are and in their order, and copies of
    the replacement text put in between. *)
Inductive kept_in_order : list string -> list string -> Prop :=
| kio_nil : kept_in_order [] []
| kio_keep : forall line input output,
    kept_in_order input output ->
    kept_in_order (line :: input) (line :: output)
| kio_drop : forall line input output,
    kept_in_order input output ->
    kept_in_order (line :: input) output
| kio_replacement : forall input output,
    kept_in_order input output ->
    kept_in_order input (replacement_line :: output).

Create HintDb kio.
#[local] Hint Constructors kept_in_order : kio.

(** A line that, inside a block closed by [section_end], falls through to
    the test of line 109 and fails it. *)
Definition stays_inside (section_end line : string) : bool :=
  negb (has_marker line) && negb (has_header line)
  && negb (str_in section_end line).

(** A line that the duplicate guard, the header replacement and the type
    removals leave alone, so that the block logic of lines 97-112 decides. *)
Definition reaches_block_logic (line : string) : bool :=
  negb (has_marker line) && negb (has_header line) && negb (skip_type line).

(** The line the duplicate guard keeps among [rest]: none when the latch is
    set, otherwise the first one with the marker. *)
Definition first_complaints (latch : bool) (rest : list string) : list string :=
  if latch then []
  else match find has_marker rest with
       | Some line => [line]
       | None => []
       end.

(* ------------------------------------------------------------------------- *)
(** ** Lines of [shared/schema.ts] used as examples *)

Definition complaints_1 : string :=
  "export const complaints = pgTable('complaints', { // first" ++ LF.
Definition complaints_2 : string :=
  "export const complaints = pgTable('complaints', { // second" ++ LF.

Definition type_and_marker_line : string :=
  "export type Process = typeof complaints = pgTable;" ++ LF.

Definition processes_open : string :=
  "export const processes = pgTable('processes', {" ++ LF.
Definition block_close : string := "});" ++ LF.

Definition id_column : string := "  id: serial('id')," ++ LF.

Definition import_line : string :=
  "import { pgTable } from 'drizzle-orm';" ++ LF.
Definition users_line : string := "export const userCount = 1;" ++ LF.

(* ------------------------------------------------------------------------- *)
(** ** States the loop passes through; lists with lines deleted *)

(** The states at the head of the [while]: the initial one, and every one an
    iteration produces from such a state with the guard [i < len(lines)]
    true. *)
Inductive reachable (lines : list string) : state -> Prop :=
| reach_initial : reachable lines initial_state
| reach_body : forall st st' : state,
    reachable lines st -> i st < length lines ->
    body lines st = Ok st' -> reachable lines st'.

(** [subsequence input output]: [output] is [input] with some lines
    deleted and nothing else changed. *)
Inductive subsequence : list string -> list string -> Prop :=
| sub_nil : subsequence [] []
| sub_keep : forall line input output,
    subsequence input output ->
    subsequence (line :: input) (line :: output)
| sub_drop : forall line input output,
    subsequence input output ->
    subsequence (line :: input) output.

(** A line the pass leaves in place when it meets it outside a block: it
    has the duplicate-guard marker, or no rule matches it. *)
Definition settled (line : string) : bool :=
  has_marker line || no_rule_matches line.

(* ------------------------------------------------------------------------- *)
(** ** The file and the terminal (lines 5-6 and 114-118) *)

(** The text of a file is the sequence of its characters as stored; a file
    is absent, or it is a text file the script may read and write.  Both
    [open] calls are in text mode with the default [newline=None]. *)





















(* ------------------------------------------------------------------------- *)
(** ** The loop: fuel, steps, invariants *)

Lemma replace_headers_eq (line : string) (st : state) :
  replace_headers line st =
  if has_header line then advance (append replacement_line st) else st.
Proof.
  unfold replace_headers, has_header. simpl.
  rewrite orb_false_r.
  destruct (str_in _ line); reflexivity.
Qed.

Lemma replace_headers_skipping (line : string) (st : state) :
  skipping (replace_headers line st) = skipping st.
Proof. rewrite replace_headers_eq. destruct (has_header line); reflexivity. Qed.

Lemma replace_headers_section_end (line : string) (st : state) :
  current_section_end (replace_headers line st) = current_section_end st.
Proof. rewrite replace_headers_eq. destruct (has_header line); reflexivity. Qed.


(** In a well-formed state the body raises nothing and takes one of the
    branches above. *)
Lemma body_line_iteration (line : string) (st : state) :
  well_formed st ->
  exists st', body_line line st = Ok st' /\ iteration line st st'.
Proof.
  intros Hwf. unfold body_line. fold (has_marker line).
  destruct (has_marker line) eqn:Hm.
  - destruct (skip_next_complaints st) eqn:Hl; simpl.
    + eexists; split; [reflexivity | now constructor].
    + eexists; split; [reflexivity | now constructor].
  - simpl. destruct (skip_type line) eqn:Ht.
    + eexists; split; [reflexivity | now constructor].
    + rewrite replace_headers_skipping, replace_headers_section_end.
      destruct (skipping st) eqn:Hs; simpl.
      * destruct (Hwf Hs) as [e He]. rewrite He.
        eexists; split; [reflexivity | now constructor].
      * destruct (find_section line) as [[[n o] e]|] eqn:Hf.
        -- eexists; split; [reflexivity | now econstructor; eauto].
        -- eexists; split; [reflexivity | now constructor].
Qed.

Lemma iteration_well_formed (line : string) (st st' : state) :
  well_formed st -> iteration line st st' -> well_formed st'.
Proof.
  unfold well_formed. intros Hwf Hit.
  destruct Hit; simpl;
    rewrite ?replace_headers_skipping, ?replace_headers_section_end;
    eauto; try congruence.
  destruct (str_in section_end line); simpl;
    rewrite ?replace_headers_skipping, ?replace_headers_section_end; eauto;
    congruence.
Qed.

(** Every branch moves the index forward, by one or by two. *)
Lemma body_line_index (line : string) (st st' : state) :
  body_line line st = Ok st' -> i st < i st' <= i st + 2.
Proof.
  unfold body_line. rewrite replace_headers_eq.
  destruct (str_in complaints_marker line && skip_next_complaints st).
  { intros [= <-]. simpl. lia. }
  destruct (str_in complaints_marker line).
  { intros [= <-]. simpl. lia. }
  destruct (has_header line); simpl;
    destruct (skip_type line); try (intros [= <-]; simpl; lia);
    destruct (skipping st); simpl;
    try (destruct (find_section line) as [[[? ?] ?]|];
         intros [= <-]; simpl; lia);
    destruct (current_section_end st); try discriminate;
    intros [= <-]; destruct (str_in _ line); simpl; lia.
Qed.

Lemma body_index (lines : list string) (st st' : state) :
  body lines st = Ok st' -> i st < i st' <= i st + 2.
Proof.
  unfold body. destruct (nth_error lines (i st)); [|discriminate].
  apply body_line_index.
Qed.

Lemma while_loop_done (fuel : nat) (lines : list string) (st : state) :
  length lines <= i st -> while_loop fuel lines st = Some (Ok st).
Proof.
  intros H. destruct fuel; simpl;
    destruct (Nat.ltb_spec (i st) (length lines)); (reflexivity || lia).
Qed.

(** More fuel than there are indices ahead changes nothing. *)
Lemma while_loop_fuel (lines : list string) (fuel : nat) :
  forall st, length lines - i st <= fuel ->
             while_loop fuel lines st = run_loop lines st.
Proof.
  induction fuel as [fuel IH] using lt_wf_ind. intros st Hle.
  unfold run_loop.
  destruct (Nat.ltb_spec (i st) (length lines)) as [Hlt|Hge].
  - destruct fuel as [|fuel]; [lia|].
    destruct (length lines - i st) as [|k] eqn:Hk; [lia|].
    simpl. destruct (Nat.ltb_spec (i st) (length lines)); [|lia].
    destruct (body lines st) as [st'|e] eqn:Hb; [|reflexivity].
    pose proof (body_index _ _ Hb) as Hi.
    rewrite (IH fuel) by lia. rewrite (IH k) by lia. reflexivity.
  - rewrite !while_loop_done by lia. reflexivity.
Qed.

Lemma run_loop_done (lines : list string) (st : state) :
  length lines <= i st -> run_loop lines st = Some (Ok st).
Proof. apply while_loop_done. Qed.

Lemma run_loop_step (lines : list string) (line : string) (st st' : state) :
  nth_error lines (i st) = Some line ->
  body_line line st = Ok st' ->
  run_loop lines st = run_loop lines st'.
Proof.
  intros Hn Hb.
  assert (Hlt : i st < length lines) by (apply nth_error_Some; congruence).
  pose proof (body_line_index _ _ Hb) as Hi.
  unfold run_loop at 1.
  destruct (length lines - i st) as [|k] eqn:Hk; [lia|].
  simpl. destruct (Nat.ltb_spec (i st) (length lines)); [|lia].
  unfold body. rewrite Hn, Hb. apply while_loop_fuel. lia.
Qed.

(** The invariant rule of the loop: what the initial state has and every
    iteration keeps, the final state has; and there is a final state. *)
Lemma run_loop_invariant (lines : list string) (P : state -> Prop) :
  (forall st line st',
      well_formed st -> P st -> nth_error lines (i st) = Some line ->
      iteration line st st' -> P st') ->
  forall st, well_formed st -> P st ->
  exists st', run_loop lines st = Some (Ok st')
              /\ well_formed st' /\ P st' /\ length lines <= i st'.
Proof.
  intros Hstep st.
  remember (length lines - i st) as m eqn:Hm.
  revert st Hm. induction m as [m IH] using lt_wf_ind. intros st Hm Hwf HP.
  destruct (nth_error lines (i st)) as [line|] eqn:Hn.
  - destruct (body_line_iteration line Hwf) as (st1 & Hb & Hit).
    assert (Hlt : i st < length lines) by (apply nth_error_Some; congruence).
    pose proof (body_line_index _ _ Hb) as Hi.
    rewrite (run_loop_step _ _ Hn Hb).
    apply (IH (length lines - i st1)); try lia; eauto using iteration_well_formed.
  - apply nth_error_None in Hn.
    exists st. rewrite run_loop_done by lia. auto.
Qed.

Lemma initial_state_well_formed : well_formed initial_state.
Proof. intros H. discriminate H. Qed.

(** The invariant rule, for the whole pass. *)
Lemma pass_invariant (lines : list string) (P : state -> Prop) :
  P initial_state ->
  (forall st line st',
      well_formed st -> P st -> nth_error lines (i st) = Some line ->
      iteration line st st' -> P st') ->
  exists st', remove_system_health_components lines = Some (Ok (fixed_lines st'))
              /\ P st' /\ length lines <= i st'.
Proof.
  intros H0 Hstep.
  destruct (run_loop_invariant lines P Hstep initial_state_well_formed H0)
    as (st' & Hrun & _ & HP & Hlen).
  exists st'. unfold remove_system_health_components. rewrite Hrun. auto.
Qed.

(* ------------------------------------------------------------------------- *)
(** ** Lists of lines *)

Lemma firstn_succ (A : Type) (l : list A) :
  forall k, firstn (S k) l =
            (firstn k l ++ match nth_error l k with
                           | Some x => [x]
                           | None => []
                           end)%list.
Proof.
  induction l as [|a l IH]; intros [|k]; try reflexivity.
  change (firstn (S (S k)) (a :: l)) with (a :: firstn (S k) l).
  rewrite IH. reflexivity.
Qed.

Lemma kept_in_order_none (input : list string) : kept_in_order input [].
Proof. induction input; auto with kio. Qed.

Lemma kept_in_order_app (a o b p : list string) :
  kept_in_order a o -> kept_in_order b p ->
  kept_in_order (a ++ b) (o ++ p).
Proof. intros Ha Hb. induction Ha; simpl; auto with kio. Qed.

Lemma kept_in_order_origin (input output : list string) :
  kept_in_order input output ->
  Forall (fun l => In l input \/ l = replacement_line) output.
Proof.
  induction 1 as [|line input output _ IH|line input output _ IH
                  |input output _ IH].
  - constructor.
  - constructor; [left; now left|].
    eapply Forall_impl; [|exact IH]. simpl. intros l [Hl|Hl]; auto.
  - eapply Forall_impl; [|exact IH]. simpl. intros l [Hl|Hl]; auto.
  - constructor; auto.
Qed.

(** The lines one iteration consumes (the one at [i], and the next one when
    the index moved by two) against the lines it appended. *)
Lemma iteration_kept_in_order (lines : list string) (line : string)
      (st st' : state) :
  nth_error lines (i st) = Some line ->
  iteration line st st' ->
  kept_in_order (firstn (i st) lines) (fixed_lines st) ->
  kept_in_order (firstn (i st') lines) (fixed_lines st').
Proof.
  intros Hn Hit Hinv.
  assert (H1 : firstn (S (i st)) lines = (firstn (i st) lines ++ [line])%list)
    by (rewrite firstn_succ, Hn; reflexivity).
  assert (H2 : exists next, firstn (S (S (i st))) lines
                            = (firstn (i st) lines ++ line :: next)%list).
  { rewrite firstn_succ, H1, <- app_assoc. simpl. eauto. }
  destruct H2 as [next H2].
  destruct Hit; rewrite ?replace_headers_eq;
    try destruct (str_in section_end line);
    destruct (has_header line);
    cbn [i fixed_lines advance append set_skip_next_complaints
         enter_section leave_section];
    rewrite ?H1, ?H2, <- ?app_assoc;
    match goal with
    | |- kept_in_order _ (fixed_lines st ++ _) => idtac
    | |- kept_in_order _ (fixed_lines st) =>
        rewrite <- (app_nil_r (fixed_lines st))
    end;
    apply kept_in_order_app; simpl;
    auto using kept_in_order_none with kio.
Qed.

(* ------------------------------------------------------------------------- *)
(** ** Termination *)

(** C10.  Every iteration of the loop body that returns leaves the index [i]
    strictly larger than it found it; the pass over any list of lines ends
    with a list of lines, the fuel of one unit per line never used up and no
    exception raised; and any larger bound on the number of iterations gives
    the same final state. *)
Theorem C10_pass_terminates (lines : list string) :
  (forall st st' : state, body lines st = Ok st' -> i st < i st')
  /\ (exists fixed : list string,
         remove_system_health_components lines = Some (Ok fixed))
  /\ (forall fuel : nat,
         length lines <= fuel ->
         while_loop fuel lines initial_state = run_loop lines initial_state).
Proof.
  split; [|split].
  - intros st st' Hb. apply (body_index _ _ Hb).
  - destruct (pass_invariant lines (fun _ => True) I) as (st' & Hrun & _);
      eauto.
  - intros fuel Hfuel. apply while_loop_fuel. simpl. lia.
Qed.

Lemma C10_pass_terminates_witness :
  i initial_state < i (advance (append ("a" ++ LF) initial_state))
  /\ (exists fixed : list string,
         remove_system_health_components ["a" ++ LF; "b" ++ LF]
         = Some (Ok fixed))
  /\ while_loop 5 ["a" ++ LF; "b" ++ LF] initial_state
     = run_loop ["a" ++ LF; "b" ++ LF] initial_state.
Proof.
  destruct (C10_pass_terminates ["a" ++ LF; "b" ++ LF])
    as (Hstep & Hend & Hfuel).
  split; [|split; [exact Hend|]].
  - apply Hstep. vm_compute. reflexivity.
  - apply Hfuel. simpl. lia.
Defined.

(* ------------------------------------------------------------------------- *)
(** ** Where the output lines come from *)

(** C9.  For every input, the pass returns a list in which every line is a
    line of the input or the replacement text with its line feed, and which
    is the input with lines deleted, the remaining ones in their original
    order, and copies of the replacement text in between. *)
Theorem C9_output_lines_from_input (lines : list string) :
  exists fixed : list string,
    remove_system_health_components lines = Some (Ok fixed)
    /\ Forall (fun l => In l lines \/ l = replacement_line) fixed
    /\ kept_in_order lines fixed.
Proof.
  destruct (pass_invariant lines
              (fun st => kept_in_order (firstn (i st) lines) (fixed_lines st)))
    as (st' & Hrun & Hinv & Hlen).
  - simpl. constructor.
  - intros st line st' _ Hinv Hn Hit.
    eapply iteration_kept_in_order; eauto.
  - rewrite firstn_all2 in Hinv by exact Hlen.
    exists (fixed_lines st'). auto using kept_in_order_origin.
Qed.

(* ------------------------------------------------------------------------- *)
(** ** Lines no rule matches *)

(** C7.  When no line of the input contains the duplicate-guard marker, the
    old header text or a type-removal pattern, and none contains the name
    and the start of a skip rule, the pass returns the input unchanged. *)
Theorem C7_identity_when_no_rule_matches (lines : list string) :
  Forall (fun line => no_rule_matches line = true) lines ->
  remove_system_health_components lines = Some (Ok lines).
Proof.
  intros Hall.
  destruct (pass_invariant lines
              (fun st => skipping st = false
                         /\ fixed_lines st = firstn (i st) lines))
    as (st' & Hrun & [_ Hinv] & Hlen).
  - split; reflexivity.
  - intros st line st' _ [Hs Hfix] Hn Hit.
    assert (Hline : no_rule_matches line = true).
    { rewrite Forall_forall in Hall. eapply Hall, nth_error_In; eauto. }
    unfold no_rule_matches in Hline.
    apply andb_prop in Hline as [Hline Hfind].
    apply andb_prop in Hline as [Hline Htype].
    apply andb_prop in Hline as [Hmark Hhead].
    apply negb_true_iff in Hmark, Hhead, Htype.
    destruct Hit; try congruence.
    + rewrite H2 in Hfind. discriminate.
    + rewrite replace_headers_eq, Hhead.
      cbn [i fixed_lines skipping advance append].
      rewrite firstn_succ, Hn, Hfix. auto.
  - rewrite firstn_all2 in Hinv by exact Hlen.
    rewrite Hrun, Hinv. reflexivity.
Qed.

Lemma C7_identity_when_no_rule_matches_witness :
  remove_system_health_components
    ["export const users = pgTable('users', {" ++ LF;
     "  id: serial('id')," ++ LF;
     "});" ++ LF]
  = Some (Ok ["export const users = pgTable('users', {" ++ LF;
              "  id: serial('id')," ++ LF;
              "});" ++ LF]).
Proof.
  apply C7_identity_when_no_rule_matches.
  repeat (constructor; [vm_compute; reflexivity|]). constructor.
Defined.

(* ------------------------------------------------------------------------- *)
(** ** The duplicate guard *)

Lemma replacement_line_plain :
  has_marker replacement_line = false /\ skip_type replacement_line = false.
Proof. split; vm_compute; reflexivity. Qed.




(* ------------------------------------------------------------------------- *)
(** ** Type removals *)

(** C6, as stated, fails: a line with a type-removal pattern that also has
    the duplicate-guard marker is taken by the duplicate guard, which comes
    first in the body, and the first such line is kept. *)
Lemma C6_type_line_with_marker_is_kept :
  skip_type type_and_marker_line = true
  /\ remove_system_health_components [type_and_marker_line]
     = Some (Ok [type_and_marker_line]).
Proof. split; vm_compute; reflexivity. Qed.

(** C6, amended.  A line with a type-removal pattern, without the
    duplicate-guard marker and without the old header text, is dropped in
    every state, inside a skipped block or outside: the iteration changes
    the index only.  And no line of the output of the pass contains a
    type-removal pattern, unless it contains the duplicate-guard marker. *)
Theorem C6_type_removal_lines_are_dropped :
  (forall (line : string) (st : state),
      skip_type line = true -> has_marker line = false ->
      has_header line = false ->
      body_line line st = Ok (advance st))
  /\ (forall lines : list string,
         exists fixed : list string,
           remove_system_health_components lines = Some (Ok fixed)
           /\ Forall (fun l => skip_type l = true -> has_marker l = true) fixed).
Proof.
  split.
  - intros line st Ht Hm Hh. unfold body_line. fold (has_marker line).
    rewrite Hm, replace_headers_eq, Hh. simpl. rewrite Ht. reflexivity.
  - intros lines.
    destruct (pass_invariant lines
                (fun st => Forall (fun l => skip_type l = true ->
                                            has_marker l = true)
                                  (fixed_lines st)))
      as (st' & Hrun & Hinv & _).
    + constructor.
    + intros st line st' _ Hinv _ Hit.
      destruct replacement_line_plain as [_ Hr].
      destruct Hit; rewrite ?replace_headers_eq;
        try destruct (str_in section_end line);
        destruct (has_header line);
        cbn [fixed_lines advance append set_skip_next_complaints
             enter_section leave_section];
        repeat (apply Forall_app; split); auto;
        repeat constructor; intros; congruence.
    + eauto.
Qed.

Lemma C6_type_removal_lines_are_dropped_witness :
  body_line ("export type Alert = typeof alerts.$inferSelect;" ++ LF)
            (mkState 7 true (Some "});") false [])
  = Ok (mkState 8 true (Some "});") false []).
Proof.
  apply (proj1 C6_type_removal_lines_are_dropped
               ("export type Alert = typeof alerts.$inferSelect;" ++ LF)
               (mkState 7 true (Some "});") false []));
    vm_compute; reflexivity.
Defined.

(* ------------------------------------------------------------------------- *)
(** ** The header replacement *)

(** C1, on the code.  The [continue] of line 83 continues the [for] over
    [relations_sections]: after the replacement text is appended and [i]
    incremented, the body goes on with the header line.  Outside a block the
    header line is appended too and [i] incremented again, so the line after
    the header is never looked at. *)
Theorem C1_header_line_evaluated :
  remove_system_health_components
    [header_line; "export const a = 1;" ++ LF; "export const b = 2;" ++ LF]
  = Some (Ok [replacement_line; header_line; "export const b = 2;" ++ LF]).
Proof. vm_compute. reflexivity. Qed.

(** C2, on the code.  One iteration on the header line, from the initial
    state: two lines are appended and the index moves from 0 to 2. *)
Theorem C2_header_iteration_evaluated :
  body [header_line; "export const a = 1;" ++ LF] initial_state
  = Ok (mkState 2 false None false [replacement_line; header_line])
  /\ remove_system_health_components [header_line]
     = Some (Ok [replacement_line; header_line]).
Proof. split; vm_compute; reflexivity. Qed.

(** C4, on the code.  A line with the marker that comes right after a header
    line is stepped over by the second increment: it is not in the output,
    and the next line with the marker is the one that is kept. *)
Theorem C4_first_occurrence_after_header_evaluated :
  remove_system_health_components [header_line; complaints_1; complaints_2]
  = Some (Ok [replacement_line; header_line; complaints_2]).
Proof. vm_compute. reflexivity. Qed.

(* ------------------------------------------------------------------------- *)
(** ** Skipped blocks *)

Lemma skipn_cons_nth (A : Type) (l : list A) :
  forall (k : nat) (x : A) (r : list A),
    skipn k l = x :: r -> nth_error l k = Some x /\ skipn (S k) l = r.
Proof.
  induction l as [|a l IH]; intros [|k] x r H; simpl in *;
    try discriminate.
  - injection H as -> ->. auto.
  - apply IH in H. exact H.
Qed.

Lemma skipn_length_app (A : Type) (pre rest : list A) :
  skipn (length pre) (pre ++ rest) = rest.
Proof. induction pre; simpl; auto. Qed.

Lemma state_eta (st : state) :
  st = mkState (i st) (skipping st) (current_section_end st)
               (skip_next_complaints st) (fixed_lines st).
Proof. destruct st; reflexivity. Qed.

(** Inside a block, a line with neither the marker nor the old header text
    nor the closing text changes the index only. *)
Lemma body_line_stays_inside (section_end line : string) (st : state) :
  skipping st = true -> current_section_end st = Some section_end ->
  stays_inside section_end line = true ->
  body_line line st = Ok (advance st).
Proof.
  intros Hs He Hin. unfold stays_inside in Hin.
  apply andb_prop in Hin as [Hin Hc]. apply andb_prop in Hin as [Hm Hh].
  apply negb_true_iff in Hm, Hh, Hc.
  unfold body_line. fold (has_marker line).
  rewrite Hm, replace_headers_eq, Hh. simpl.
  destruct (skip_type line); [reflexivity|].
  rewrite Hs, He, Hc. reflexivity.
Qed.

(** The loop runs over the inner lines of a block without any effect but on
    the index. *)
Lemma run_loop_inner (lines : list string) (section_end : string)
      (inner : list string) :
  forall (rest : list string) (st : state),
    skipn (i st) lines = (inner ++ rest)%list ->
    skipping st = true -> current_section_end st = Some section_end ->
    Forall (fun x => stays_inside section_end x = true) inner ->
    run_loop lines st
    = run_loop lines (mkState (i st + length inner) true (Some section_end)
                              (skip_next_complaints st) (fixed_lines st)).
Proof.
  induction inner as [|x inner IH]; intros rest st Hskip Hs He Hall.
  - simpl. rewrite Nat.add_0_r, <- Hs, <- He, <- state_eta. reflexivity.
  - simpl in Hskip. apply skipn_cons_nth in Hskip as [Hn Hskip].
    inversion Hall as [|? ? Hx Hall']; subst.
    rewrite (run_loop_step _ _ Hn (body_line_stays_inside _ _ Hs He Hx)).
    rewrite (IH rest (advance st)); auto.
    simpl. rewrite Nat.add_succ_r. reflexivity.
Qed.

(** C5, as stated, fails.  The rule [("processes = pgTable", "{", "});")]
    matches the first line, outside any block, and the third line is the
    first one after it with the closing text; yet the line between the two
    is in the output, because the duplicate guard comes before the test for
    the closing text.  And [skip_sections] has 18 triples, not 17. *)
Lemma C5_marker_line_inside_block_is_kept :
  In ("processes = pgTable", "{", "});") skip_sections
  /\ str_in "processes = pgTable" processes_open = true
  /\ str_in "{" processes_open = true
  /\ str_in "});" complaints_1 = false
  /\ str_in "});" block_close = true
  /\ remove_system_health_components [processes_open; complaints_1; block_close]
     = Some (Ok [complaints_1])
  /\ length skip_sections = 18.
Proof.
  split; [right; left; reflexivity|].
  repeat split; vm_compute; reflexivity.
Qed.

Lemma reaches_block_logic_true (line : string) :
  reaches_block_logic line = true ->
  has_marker line = false /\ has_header line = false /\ skip_type line = false.
Proof.
  unfold reaches_block_logic. intros H.
  apply andb_prop in H as [H Ht]. apply andb_prop in H as [Hm Hh].
  apply negb_true_iff in Hm, Hh, Ht. auto.
Qed.

Lemma find_section_sound (line section_name section_start section_end : string) :
  find_section line = Some (section_name, section_start, section_end) ->
  In (section_name, section_start, section_end) skip_sections
  /\ str_in section_name line = true /\ str_in section_start line = true.
Proof.
  unfold find_section. intros H. apply find_some in H as [Hin Hm].
  apply andb_prop in Hm. auto.
Qed.

(** From the line that opens a block to the line after the one that closes
    it. *)
Lemma run_loop_block (section_name section_start section_end : string)
      (pre inner post : list string) (opening closing : string) (st : state) :
  find_section opening = Some (section_name, section_start, section_end) ->
  reaches_block_logic opening = true ->
  Forall (fun x => stays_inside section_end x = true) inner ->
  str_in section_end closing = true ->
  reaches_block_logic closing = true ->
  i st = length pre -> skipping st = false ->
  run_loop (pre ++ opening :: inner ++ closing :: post) st
  = run_loop (pre ++ opening :: inner ++ closing :: post)
             (mkState (length pre + length inner + 2) false None
                      (skip_next_complaints st) (fixed_lines st)).
Proof.
  intros Hfind Hopen Hinner Hend Hclose Hi Hs.
  apply reaches_block_logic_true in Hopen as (Hm & Hh & Ht).
  apply reaches_block_logic_true in Hclose as (Hm' & Hh' & Ht').
  set (lines := (pre ++ opening :: inner ++ closing :: post)%list).
  assert (Hskip : skipn (i st) lines = opening :: (inner ++ closing :: post)%list)
    by (rewrite Hi; apply skipn_length_app).
  apply skipn_cons_nth in Hskip as [Hn Hskip].
  (* the opening line *)
  assert (Hb : body_line opening st
               = Ok (advance (enter_section section_end st))).
  { unfold body_line. fold (has_marker opening).
    rewrite Hm, replace_headers_eq, Hh. simpl. rewrite Ht, Hs, Hfind.
    reflexivity. }
  rewrite (run_loop_step _ _ Hn Hb).
  (* the inner lines *)
  rewrite (@run_loop_inner lines section_end inner (closing :: post)
             (advance (enter_section section_end st)) Hskip eq_refl eq_refl
             Hinner).
  cbn [i skip_next_complaints fixed_lines advance enter_section].
  (* the closing line *)
  assert (Hskip' : skipn (S (i st) + length inner) lines = closing :: post).
  { rewrite Nat.add_comm, <- skipn_skipn, Hskip. apply skipn_length_app. }
  apply skipn_cons_nth in Hskip' as [Hn' _].
  erewrite run_loop_step; [|exact Hn'|].
  2:{ unfold body_line. fold (has_marker closing).
      rewrite Hm', replace_headers_eq, Hh'. simpl. rewrite Ht', Hend.
      reflexivity. }
  unfold advance, leave_section. simpl.
  f_equal. f_equal. lia.
Qed.

(** Each of the 18 triples is the first match of some line: the one made of
    its name followed by its start. *)
Lemma every_skip_rule_can_match :
  length skip_sections = 18
  /\ Forall (fun rule : string * string * string =>
               let '(section_name, section_start, _) := rule in
               find_section (section_name ++ section_start) = Some rule)
            skip_sections.
Proof.
  split; [reflexivity|].
  repeat (constructor; [vm_compute; reflexivity|]). constructor.
Qed.

(** Outside a block, a line that no rule matches is appended. *)
Lemma body_line_keep (line : string) (st : state) :
  skipping st = false -> no_rule_matches line = true ->
  body_line line st = Ok (advance (append line st)).
Proof.
  intros Hs Hline. unfold no_rule_matches in Hline.
  apply andb_prop in Hline as [Hline Hfind].
  apply andb_prop in Hline as [Hline Ht].
  apply andb_prop in Hline as [Hm Hh].
  apply negb_true_iff in Hm, Hh, Ht.
  unfold body_line. fold (has_marker line).
  rewrite Hm, replace_headers_eq, Hh. simpl. rewrite Ht, Hs. simpl.
  destruct (find_section line); [discriminate|reflexivity].
Qed.

(** The loop copies a run of such lines. *)
Lemma run_loop_plain (lines plain : list string) :
  forall (rest : list string) (st : state),
    skipn (i st) lines = (plain ++ rest)%list ->
    skipping st = false ->
    Forall (fun x => no_rule_matches x = true) plain ->
    run_loop lines st
    = run_loop lines (mkState (i st + length plain) false
                              (current_section_end st)
                              (skip_next_complaints st)
                              (fixed_lines st ++ plain)%list).
Proof.
  induction plain as [|x plain IH]; intros rest st Hskip Hs Hall.
  - simpl. rewrite Nat.add_0_r, app_nil_r, <- Hs, <- state_eta. reflexivity.
  - simpl in Hskip. apply skipn_cons_nth in Hskip as [Hn Hskip].
    inversion Hall as [|? ? Hx Hall']; subst.
    rewrite (run_loop_step _ _ Hn (@body_line_keep x st Hs Hx)).
    rewrite (IH rest (advance (append x st))); auto.
    simpl. rewrite Nat.add_succ_r, <- app_assoc. reflexivity.
Qed.

(** C5, amended.  Take a line on which [find_section] returns a triple of
    [skip_sections] (there are 18), so the line contains its name and its
    start and no earlier triple matches, and let the loop be at that line
    outside any block.  If the duplicate guard, the header replacement and
    the type removals leave that line alone, the following lines up to the
    first one with the closing text contain neither the marker nor the old
    header text, and the line with the closing text is left alone by the
    three earlier rules too, then the loop goes on from the line after the
    closing one with [fixed_lines] and [skip_next_complaints] as they were
    and outside any block: the block adds nothing to the output, what was
    appended before it stays, and what follows is processed as usual.  When
    no rule matches the lines before and after the block, the pass returns
    exactly those lines; with none before and none after, the empty
    list. *)
Theorem C5_skip_rule_drops_block
        (section_name section_start section_end : string)
        (pre inner post : list string) (opening closing : string)
        (st : state) :
  find_section opening = Some (section_name, section_start, section_end) ->
  reaches_block_logic opening = true ->
  Forall (fun x => stays_inside section_end x = true) inner ->
  str_in section_end closing = true ->
  reaches_block_logic closing = true ->
  i st = length pre -> skipping st = false ->
  (In (section_name, section_start, section_end) skip_sections
   /\ str_in section_name opening = true
   /\ str_in section_start opening = true)
  /\ run_loop (pre ++ opening :: inner ++ closing :: post) st
     = run_loop (pre ++ opening :: inner ++ closing :: post)
                (mkState (length pre + length inner + 2) false None
                         (skip_next_complaints st) (fixed_lines st))
  /\ (Forall (fun x => no_rule_matches x = true) pre ->
      Forall (fun x => no_rule_matches x = true) post ->
      remove_system_health_components
        (pre ++ opening :: inner ++ closing :: post)
      = Some (Ok (pre ++ post)%list))
  /\ remove_system_health_components (opening :: inner ++ [closing])
     = Some (Ok []).
Proof.
  intros Hfind Hopen Hinner Hend Hclose Hi Hs.
  assert (Hpass : forall pre' post' : list string,
             Forall (fun x => no_rule_matches x = true) pre' ->
             Forall (fun x => no_rule_matches x = true) post' ->
             remove_system_health_components
               (pre' ++ opening :: inner ++ closing :: post')
             = Some (Ok (pre' ++ post')%list)).
  { intros pre' post' Hpre Hpost.
    unfold remove_system_health_components.
    set (lines := (pre' ++ opening :: inner ++ closing :: post')%list).
    rewrite (@run_loop_plain lines pre'
               (opening :: inner ++ closing :: post') initial_state);
      auto.
    unfold lines at 1.
    erewrite run_loop_block; eauto. fold lines.
    cbn [i skipping current_section_end skip_next_complaints fixed_lines
         initial_state Nat.add app].
    assert (Hlen : length lines = length pre' + length inner + 2 + length post').
    { unfold lines. rewrite length_app. simpl. rewrite length_app. simpl. lia. }
    assert (Hskip : skipn (length pre' + length inner + 2) lines
                    = (post' ++ [])%list).
    { rewrite app_nil_r.
      replace (length pre' + length inner + 2)
        with (length (pre' ++ opening :: inner ++ [closing])%list)
        by (rewrite length_app; simpl; rewrite length_app; simpl; lia).
      replace lines
        with ((pre' ++ opening :: inner ++ [closing]) ++ post')%list.
      - apply skipn_length_app.
      - unfold lines. rewrite <- app_assoc. simpl.
        rewrite <- app_assoc. reflexivity. }
    erewrite run_loop_plain; [| exact Hskip | reflexivity | exact Hpost].
    rewrite run_loop_done by (simpl; lia).
    reflexivity. }
  split; [exact (find_section_sound _ Hfind)|].
  split; [eapply run_loop_block; eauto|].
  split; [apply Hpass|].
  apply (Hpass [] []); constructor.
Qed.

Lemma C5_skip_rule_drops_block_witness :
  (In ("processes = pgTable", "{", "});") skip_sections
   /\ str_in "processes = pgTable" processes_open = true
   /\ str_in "{" processes_open = true)
  /\ run_loop [import_line; processes_open; id_column; block_close; users_line]
              (mkState 1 false None false [import_line])
     = run_loop [import_line; processes_open; id_column; block_close;
                 users_line]
                (mkState 4 false None false [import_line])
  /\ remove_system_health_components
       [import_line; processes_open; id_column; block_close; users_line]
     = Some (Ok [import_line; users_line])
  /\ remove_system_health_components [processes_open; id_column; block_close]
     = Some (Ok []).
Proof.
  assert (Hplain : forall x : string,
             no_rule_matches x = true ->
             Forall (fun x => no_rule_matches x = true) [x])
    by (intros; repeat constructor; assumption).
  destruct (@C5_skip_rule_drops_block
              "processes = pgTable" "{" "});"
              [import_line] [id_column] [users_line]
              processes_open block_close
              (mkState 1 false None false [import_line]))
    as (Hrule & Hloop & Hpass & Hempty);
    try (vm_compute; reflexivity).
  - constructor; [vm_compute; reflexivity|constructor].
  - split; [exact Hrule|]. split; [exact Hloop|]. split; [|exact Hempty].
    apply Hpass; apply Hplain; vm_compute; reflexivity.
Defined.

(* ------------------------------------------------------------------------- *)
(** ** A block that is never closed *)





(* ------------------------------------------------------------------------- *)
(** ** The duplicate guard on inputs without the old header text *)

Lemma find_app (A : Type) (f : A -> bool) (a b : list A) :
  find f (a ++ b) = match find f a with
                    | Some x => Some x
                    | None => find f b
                    end.
Proof.
  induction a as [|x a IH]; simpl; [reflexivity|].
  destruct (f x); auto.
Qed.

(** When no line has the old header text, every line is looked at, and of
    the lines with the marker the output has the first one and no other. *)
Lemma duplicate_guard_without_header_lines (lines : list string) :
  Forall (fun line => has_header line = false) lines ->
  exists fixed : list string,
    remove_system_health_components lines = Some (Ok fixed)
    /\ filter has_marker fixed = first_complaints false lines.
Proof.
  intros Hall.
  destruct (pass_invariant lines
              (fun st =>
                 filter has_marker (fixed_lines st)
                 = first_complaints false (firstn (i st) lines)
                 /\ skip_next_complaints st
                    = match find has_marker (firstn (i st) lines) with
                      | Some _ => true
                      | None => false
                      end))
    as (st' & Hrun & [Hinv _] & Hlen).
  - split; reflexivity.
  - intros st line st' _ [Hfix Hlatch] Hn Hit.
    assert (Hh : has_header line = false).
    { rewrite Forall_forall in Hall. eapply Hall, nth_error_In; eauto. }
    assert (H1 : firstn (S (i st)) lines = (firstn (i st) lines ++ [line])%list)
      by (rewrite firstn_succ, Hn; reflexivity).
    unfold first_complaints in *.
    destruct Hit; rewrite ?replace_headers_eq, ?Hh;
      try destruct (str_in section_end line);
      cbn [i fixed_lines skip_next_complaints advance append
           set_skip_next_complaints enter_section leave_section];
      rewrite H1, find_app, ?filter_app; cbn [find filter];
      match goal with H : has_marker line = _ |- _ => rewrite H end;
      destruct (find has_marker (firstn (i st) lines));
      try congruence; rewrite ?Hfix, ?app_nil_r; auto.
  - rewrite firstn_all2 in Hinv by exact Hlen. eauto.
Qed.

(* ------------------------------------------------------------------------- *)
(** ** Invariants of the loop state *)

(** X1.  In every state the loop passes through, [skipping] is set exactly
    when a closing text is recorded in [current_section_end]; a recorded
    closing text is the third component of a triple of [skip_sections]; the
    output so far has at most as many lines as the index has passed; and
    the index is at most one beyond the end of [lines]. *)
Theorem X1_reachable_state_invariant (lines : list string) (st : state) :
  reachable lines st ->
  (skipping st = true <-> current_section_end st <> None)
  /\ (forall section_end : string,
         current_section_end st = Some section_end ->
         exists section_name section_start : string,
           In (section_name, section_start, section_end) skip_sections)
  /\ length (fixed_lines st) <= i st
  /\ i st <= length lines + 1.
Proof.
  induction 1 as [|st st' _ IH Hlt Hb].
  - simpl. repeat split; try congruence; try lia.
  - destruct IH as (Hsk & Hend & Hlen & _).
    assert (Hwf : well_formed st).
    { intros Hs. apply Hsk in Hs.
      destruct (current_section_end st); [eauto|congruence]. }
    unfold body in Hb.
    destruct (nth_error lines (i st)) as [line|]; [|discriminate].
    destruct (body_line_iteration line Hwf) as (st1 & Hb1 & Hit).
    assert (st1 = st') by congruence. subst st1. clear Hb Hb1.
    destruct Hit; rewrite ?replace_headers_eq;
      try destruct (str_in section_end line);
      destruct (has_header line);
      cbn [i skipping current_section_end skip_next_complaints fixed_lines
           advance append set_skip_next_complaints enter_section
           leave_section];
      rewrite ?length_app; cbn [length];
      (split; [|split; [|lia]]);
      try assumption;
      try (split; congruence);
      try (intros e [= <-]);
      try discriminate;
      eauto using find_section_sound;
      try (match goal with
           | H : find_section line = Some _ |- _ =>
               apply find_section_sound in H; destruct H as (H & _); eauto
           end).
Qed.

Lemma X1_reachable_state_invariant_witness :
  (skipping (mkState 1 true (Some "});") false []) = true
   <-> current_section_end (mkState 1 true (Some "});") false []) <> None)
  /\ (forall section_end : string,
         current_section_end (mkState 1 true (Some "});") false [])
         = Some section_end ->
         exists section_name section_start : string,
           In (section_name, section_start, section_end) skip_sections)
  /\ length (fixed_lines (mkState 1 true (Some "});") false [])) <= 1
  /\ 1 <= length [processes_open; id_column] + 1.
Proof.
  apply (@X1_reachable_state_invariant [processes_open; id_column]
           (mkState 1 true (Some "});") false [])).
  apply (@reach_body _ initial_state); [constructor|simpl; lia|].
  vm_compute. reflexivity.
Defined.

(** X2.  The output of the pass has at most one line more than the
    input. *)
Theorem X2_output_at_most_one_line_longer (lines : list string) :
  exists fixed : list string,
    remove_system_health_components lines = Some (Ok fixed)
    /\ length fixed <= length lines + 1.
Proof.
  destruct (pass_invariant lines
              (fun st => length (fixed_lines st) <= i st
                         /\ i st <= length lines + 1))
    as (st' & Hrun & [Hlen Hi] & _).
  - simpl. lia.
  - intros st line st' _ [Hlen _] Hn Hit.
    assert (Hlt : i st < length lines) by (apply nth_error_Some; congruence).
    destruct Hit; rewrite ?replace_headers_eq;
      try destruct (str_in section_end line);
      destruct (has_header line);
      cbn [i fixed_lines advance append set_skip_next_complaints
           enter_section leave_section];
      rewrite ?length_app; cbn [length]; lia.
  - exists (fixed_lines st'). split; [exact Hrun|lia].
Qed.

(* ------------------------------------------------------------------------- *)
(** ** What the output is made of *)

Lemma subsequence_none (input : list string) : subsequence input [].
Proof. induction input; constructor; assumption. Qed.

Lemma subsequence_app (a o b p : list string) :
  subsequence a o -> subsequence b p -> subsequence (a ++ b) (o ++ p).
Proof. intros Ha Hb. induction Ha; simpl; try constructor; auto. Qed.

Lemma subsequence_length (input output : list string) :
  subsequence input output -> length output <= length input.
Proof. induction 1; simpl; lia. Qed.

(** On an input without the old header text the pass copies or deletes each
    line, and every line it copies is settled; it copies one line with the
    marker at most. *)
Lemma pass_without_header_lines (lines : list string) :
  Forall (fun line => has_header line = false) lines ->
  exists fixed : list string,
    remove_system_health_components lines = Some (Ok fixed)
    /\ subsequence lines fixed
    /\ Forall (fun l => settled l = true) fixed
    /\ length (filter has_marker fixed) <= 1.
Proof.
  intros Hall.
  destruct (pass_invariant lines
              (fun st =>
                 subsequence (firstn (i st) lines) (fixed_lines st)
                 /\ Forall (fun l => settled l = true) (fixed_lines st)
                 /\ length (filter has_marker (fixed_lines st))
                    <= Nat.b2n (skip_next_complaints st)))
    as (st' & Hrun & (Hsub & Hset & Hone) & Hlen).
  - simpl. repeat split; try constructor.
  - intros st line st' _ (Hsub & Hset & Hone) Hn Hit.
    assert (Hh : has_header line = false).
    { rewrite Forall_forall in Hall. eapply Hall, nth_error_In; eauto. }
    assert (H1 : firstn (S (i st)) lines = (firstn (i st) lines ++ [line])%list)
      by (rewrite firstn_succ, Hn; reflexivity).
    assert (Hdrop : subsequence (firstn (i st) lines ++ [line])
                                (fixed_lines st)).
    { rewrite <- (app_nil_r (fixed_lines st)).
      apply subsequence_app; [assumption|repeat constructor]. }
    assert (Hkeep : subsequence (firstn (i st) lines ++ [line])
                                (fixed_lines st ++ [line])).
    { apply subsequence_app; [assumption|repeat constructor]. }
    destruct Hit as [Hm Hl|Hm Hl|Hm Ht|n o e Hm Ht _ Hf|Hm Ht _ Hf|e Hm Ht _ _];
      rewrite ?replace_headers_eq, ?Hh;
      try destruct (str_in e line);
      cbn [i fixed_lines skip_next_complaints advance append
           set_skip_next_complaints enter_section leave_section];
      rewrite H1;
      try (repeat split; assumption).
    + rewrite Hl in Hone. simpl in Hone.
      split; [assumption|]. split.
      * apply Forall_app. split; [assumption|].
        repeat constructor. unfold settled. rewrite Hm. reflexivity.
      * rewrite filter_app, length_app. simpl. rewrite Hm. simpl. lia.
    + split; [assumption|]. split.
      * apply Forall_app. split; [assumption|].
        repeat constructor. unfold settled, no_rule_matches.
        rewrite Hm, Hh, Ht, Hf. reflexivity.
      * rewrite filter_app, length_app. simpl. rewrite Hm. simpl. lia.
  - rewrite firstn_all2 in Hsub by exact Hlen.
    exists (fixed_lines st'). repeat split; auto.
    destruct (skip_next_complaints st'); simpl in Hone; lia.
Qed.

(** X3.  When no line of the input has the old header text, the pass only
    deletes lines: the output is the input with some lines taken out, the
    others unchanged and in place, so it is no longer than the input. *)
Theorem X3_pass_only_deletes_without_header (lines : list string) :
  Forall (fun line => has_header line = false) lines ->
  exists fixed : list string,
    remove_system_health_components lines = Some (Ok fixed)
    /\ subsequence lines fixed
    /\ length fixed <= length lines.
Proof.
  intros Hall.
  destruct (pass_without_header_lines Hall) as (fixed & Hrun & Hsub & _).
  exists fixed. auto using subsequence_length.
Qed.

Lemma X3_pass_only_deletes_without_header_witness :
  exists fixed : list string,
    remove_system_health_components
      [import_line; processes_open; id_column; block_close; users_line]
    = Some (Ok fixed)
    /\ subsequence
         [import_line; processes_open; id_column; block_close; users_line]
         fixed
    /\ length fixed
       <= length [import_line; processes_open; id_column; block_close;
                  users_line].
Proof.
  apply X3_pass_only_deletes_without_header.
  repeat (constructor; [vm_compute; reflexivity|]). constructor.
Defined.

Lemma replacement_line_opens_nothing : find_section replacement_line = None.
Proof. vm_compute. reflexivity. Qed.

(** X4.  No line of the output is left for a type removal or a skip rule:
    an output line without the duplicate-guard marker contains no
    type-removal pattern, and no triple of [skip_sections] has both its name
    and its start in it. *)
Theorem X4_output_has_no_removable_line (lines : list string) :
  exists fixed : list string,
    remove_system_health_components lines = Some (Ok fixed)
    /\ Forall (fun l => has_marker l = true
                        \/ (skip_type l = false /\ find_section l = None))
              fixed.
Proof.
  destruct (pass_invariant lines
              (fun st =>
                 Forall (fun l => has_marker l = true
                                  \/ (skip_type l = false
                                      /\ find_section l = None))
                        (fixed_lines st)))
    as (st' & Hrun & Hinv & _).
  - constructor.
  - intros st line st' _ Hinv _ Hit.
    destruct replacement_line_plain as [_ Hr].
    pose proof replacement_line_opens_nothing as Hr'.
    destruct Hit; rewrite ?replace_headers_eq;
      try destruct (str_in section_end line);
      destruct (has_header line);
      cbn [fixed_lines advance append set_skip_next_complaints
           enter_section leave_section];
      repeat (apply Forall_app; split); auto;
      repeat constructor; auto.
  - eauto.
Qed.

(* ------------------------------------------------------------------------- *)
(** ** Running the pass again *)

Lemma nth_error_split_at (A : Type) (l : list A) :
  forall (k : nat) (x : A),
    nth_error l k = Some x -> l = (firstn k l ++ x :: skipn (S k) l)%list.
Proof.
  induction l as [|a l IH]; intros [|k] x H; simpl in *; try discriminate.
  - injection H as ->. reflexivity.
  - f_equal. apply IH. exact H.
Qed.

(** A list of settled lines with at most one marker line is left as it
    is. *)
Lemma pass_keeps_settled_lines (lines : list string) :
  Forall (fun line => settled line = true) lines ->
  length (filter has_marker lines) <= 1 ->
  remove_system_health_components lines = Some (Ok lines).
Proof.
  intros Hall Hone.
  destruct (pass_invariant lines
              (fun st =>
                 skipping st = false
                 /\ fixed_lines st = firstn (i st) lines
                 /\ (skip_next_complaints st = true ->
                     1 <= length (filter has_marker (firstn (i st) lines)))))
    as (st' & Hrun & (_ & Hinv & _) & Hlen).
  - repeat split; simpl; congruence.
  - intros st line st' _ (Hs & Hfix & Hlatch) Hn Hit.
    assert (Hline : settled line = true).
    { rewrite Forall_forall in Hall. eapply Hall, nth_error_In; eauto. }
    assert (H1 : firstn (S (i st)) lines = (firstn (i st) lines ++ [line])%list)
      by (rewrite firstn_succ, Hn; reflexivity).
    unfold settled, no_rule_matches in Hline.
    destruct Hit as [Hm Hl|Hm Hl|Hm Ht|n o e Hm Ht _ Hf|Hm Ht _ Hf|e Hm Ht Hs' _].
    + (* a second marker line: there is none *)
      exfalso. apply Hlatch in Hl.
      rewrite (nth_error_split_at _ _ Hn) in Hone.
      rewrite filter_app in Hone. simpl in Hone. rewrite Hm in Hone.
      rewrite length_app in Hone. simpl in Hone. lia.
    + cbn [i skipping fixed_lines skip_next_complaints advance append
           set_skip_next_complaints].
      rewrite H1, Hfix, filter_app, length_app. simpl. rewrite Hm. simpl.
      repeat split; auto. lia.
    + rewrite Hm, Ht in Hline. simpl in Hline.
      rewrite andb_false_r in Hline. discriminate.
    + rewrite Hm, Ht, Hf in Hline. simpl in Hline.
      rewrite andb_false_r in Hline. discriminate.
    + rewrite Hm, Ht, Hf in Hline. simpl in Hline.
      rewrite !andb_true_r in Hline. apply negb_true_iff in Hline.
      rewrite replace_headers_eq, Hline.
      cbn [i skipping fixed_lines skip_next_complaints advance append].
      rewrite H1, Hfix, filter_app, length_app. simpl. rewrite Hm. simpl.
      repeat split; auto. intros Hl. apply Hlatch in Hl. lia.
    + congruence.
  - rewrite firstn_all2 in Hinv by exact Hlen.
    rewrite Hrun, Hinv. reflexivity.
Qed.

(** X5.  When no line of the input has the old header text, the pass run on
    its own output changes nothing. *)
Theorem X5_pass_idempotent_without_header (lines : list string) :
  Forall (fun line => has_header line = false) lines ->
  exists fixed : list string,
    remove_system_health_components lines = Some (Ok fixed)
    /\ remove_system_health_components fixed = Some (Ok fixed).
Proof.
  intros Hall.
  destruct (pass_without_header_lines Hall) as (fixed & Hrun & _ & Hset & Hone).
  exists fixed. split; [exact Hrun|].
  apply pass_keeps_settled_lines; assumption.
Qed.

Lemma X5_pass_idempotent_without_header_witness :
  exists fixed : list string,
    remove_system_health_components
      [import_line; complaints_1; processes_open; complaints_2; block_close;
       users_line]
    = Some (Ok fixed)
    /\ remove_system_health_components fixed = Some (Ok fixed).
Proof.
  apply X5_pass_idempotent_without_header.
  repeat (constructor; [vm_compute; reflexivity|]). constructor.
Defined.

(* ------------------------------------------------------------------------- *)
(** ** A header line outside a block *)

(** The iteration on a line with the old header text that no other rule
    matches, outside a block: lines 81-82, then lines 106-107. *)
Lemma body_line_header (line : string) (st : state) :
  skipping st = false ->
  has_header line = true -> has_marker line = false ->
  skip_type line = false -> find_section line = None ->
  body_line line st
  = Ok (advance (append line (advance (append replacement_line st)))).
Proof.
  intros Hs Hh Hm Ht Hf. unfold body_line. fold (has_marker line).
  rewrite Hm, replace_headers_eq, Hh. simpl. rewrite Ht, Hs, Hf. reflexivity.
Qed.

(** X6.  Between lines that no rule matches, a line with the old header
    text (and no marker, type-removal pattern or skip rule in it) gives two
    output lines, the replacement text and the line itself, and the input
    line after it, whatever it contains, gives none.  As the last line of
    the input it gives the same two lines. *)
Theorem X6_header_line_takes_next_line
        (pre post : list string) (header next : string) :
  Forall (fun x => no_rule_matches x = true) pre ->
  Forall (fun x => no_rule_matches x = true) post ->
  has_header header = true -> has_marker header = false ->
  skip_type header = false -> find_section header = None ->
  remove_system_health_components (pre ++ header :: next :: post)
  = Some (Ok (pre ++ replacement_line :: header :: post)%list)
  /\ remove_system_health_components (pre ++ [header])
     = Some (Ok (pre ++ [replacement_line; header])%list).
Proof.
  intros Hpre Hpost Hh Hm Ht Hf.
  assert (Hgen : forall rest kept : list string,
             skipn 2 (header :: rest) = (kept ++ [])%list ->
             Forall (fun x => no_rule_matches x = true) kept ->
             length rest <= S (length kept) ->
             remove_system_health_components (pre ++ header :: rest)
             = Some (Ok (pre ++ replacement_line :: header :: kept)%list)).
  { intros rest kept Hskip Hkept Hlen.
    unfold remove_system_health_components.
    set (lines := (pre ++ header :: rest)%list).
    rewrite (@run_loop_plain lines pre (header :: rest) initial_state); auto.
    cbn [i skipping current_section_end skip_next_complaints fixed_lines
         initial_state Nat.add app].
    assert (Hn : nth_error lines (length pre) = Some header).
    { unfold lines. rewrite nth_error_app2, Nat.sub_diag by lia. reflexivity. }
    erewrite run_loop_step; [|exact Hn|apply body_line_header; auto].
    erewrite run_loop_plain; [| |reflexivity|exact Hkept].
    2:{ cbn [i advance append]. instantiate (1 := []).
        replace (S (S (length pre))) with (2 + length pre) by lia.
        rewrite <- skipn_skipn. unfold lines.
        rewrite skipn_length_app. exact Hskip. }
    rewrite run_loop_done.
    - cbn [fixed_lines advance append result_map option_map].
      rewrite <- !app_assoc. reflexivity.
    - cbn [i advance append]. unfold lines.
      rewrite length_app. simpl. lia. }
  split.
  - apply Hgen; [simpl; rewrite app_nil_r; reflexivity|assumption|simpl; lia].
  - apply (Hgen [] []); [reflexivity|constructor|simpl; lia].
Qed.

Lemma X6_header_line_takes_next_line_witness :
  remove_system_health_components
    [import_line; header_line; processes_open; users_line]
  = Some (Ok [import_line; replacement_line; header_line; users_line])
  /\ remove_system_health_components [import_line; header_line]
     = Some (Ok [import_line; replacement_line; header_line]).
Proof.
  apply (@X6_header_line_takes_next_line
           [import_line] [users_line] header_line processes_open);
    try (vm_compute; reflexivity);
    (constructor; [vm_compute; reflexivity|constructor]).
Defined.

(* ------------------------------------------------------------------------- *)
(** ** The script *)











(* ------------------------------------------------------------------------- *)
(** ** The script run twice *)





















(* ------------------------------------------------------------------------- *)
(** ** The substring test *)

Lemma prefix_app (p s : string) :
  String.prefix p s = true <-> exists b : string, s = p ++ b.
Proof.
  revert s. induction p as [|c p IH]; intros s.
  - split.
    + intros _. exists s. reflexivity.
    + intros _. destruct s; reflexivity.
  - destruct s as [|d s]; simpl.
    + split; [discriminate|]. intros [b Hb]. discriminate Hb.
    + destruct (ascii_dec c d) as [->|Hcd].
      * split.
        -- intros H. apply IH in H as [b Hb]. exists b. congruence.
        -- intros [b Hb]. apply IH. exists b. congruence.
      * split; [discriminate|]. intros [b Hb]. congruence.
Qed.

Lemma str_in_unfold (pat s : string) :
  str_in pat s
  = if String.prefix pat s then true
    else match s with
         | EmptyString => false
         | String _ s' => str_in pat s'
         end.
Proof. destruct s; reflexivity. Qed.

(** X10.  The test [pat in line] of the body holds exactly when [line] is
    some text, then [pat], then some text. *)
Theorem X10_str_in_is_substring (pat line : string) :
  str_in pat line = true
  <-> exists before after : string, line = before ++ pat ++ after.
Proof.
  split.
  - induction line as [|c line IH]; rewrite str_in_unfold;
      destruct (String.prefix pat _) eqn:Hp.
    + intros _. apply prefix_app in Hp as [b Hb]. exists "", b. exact Hb.
    + discriminate.
    + intros _. apply prefix_app in Hp as [b Hb]. exists "", b. exact Hb.
    + intros H. destruct (IH H) as (before & after & ->).
      exists (String c before), after. reflexivity.
  - intros (before & after & ->).
    induction before as [|c before IH]; rewrite str_in_unfold.
    + simpl. replace (String.prefix pat (pat ++ after)) with true;
        [reflexivity|].
      symmetry. apply prefix_app. eauto.
    + destruct (String.prefix pat _); [reflexivity|]. exact IH.
Qed.

(* ------------------------------------------------------------------------- *)
(** ** Lines that come later *)

(** From a state the loop passes through, the loop ends, and it has only
    added to [fixed_lines]. *)
Lemma run_loop_extends (lines : list string) (st : state) :
  well_formed st ->
  exists (st' : state) (tail : list string),
    run_loop lines st = Some (Ok st')
    /\ fixed_lines st' = (fixed_lines st ++ tail)%list.
Proof.
  intros Hwf.
  destruct (run_loop_invariant lines
              (fun st' => exists tail : list string,
                   fixed_lines st' = (fixed_lines st ++ tail)%list))
    with (st := st) as (st' & Hrun & _ & [tail Htail] & _).
  - intros st1 line st2 _ [tail Htail] _ Hit.
    destruct Hit; rewrite ?replace_headers_eq;
      try destruct (str_in section_end line);
      destruct (has_header line);
      cbn [fixed_lines advance append set_skip_next_complaints
           enter_section leave_section];
      rewrite Htail, <- ?app_assoc; eauto.
  - exact Hwf.
  - exists []. rewrite app_nil_r. reflexivity.
  - eauto.
Qed.

(** The loop over [first ++ later] goes through the final state of the loop
    over [first]. *)
Lemma run_loop_prefix (first later : list string) :
  forall (m : nat) (st : state),
    length first - i st <= m -> well_formed st ->
    exists (st1 st2 : state) (tail : list string),
      run_loop first st = Some (Ok st1)
      /\ run_loop (first ++ later) st = Some (Ok st2)
      /\ fixed_lines st2 = (fixed_lines st1 ++ tail)%list.
Proof.
  induction m as [|m IH]; intros st Hm Hwf.
  - destruct (run_loop_extends (first ++ later) Hwf) as (st2 & tail & H2 & Ht).
    exists st, st2, tail. rewrite run_loop_done by lia. auto.
  - destruct (nth_error first (i st)) as [line|] eqn:Hn.
    + assert (Hlt : i st < length first) by (apply nth_error_Some; congruence).
      assert (Hn' : nth_error (first ++ later) (i st) = Some line)
        by (rewrite nth_error_app1; assumption).
      destruct (body_line_iteration line Hwf) as (st' & Hb & Hit).
      pose proof (body_line_index _ _ Hb) as Hi.
      rewrite (run_loop_step _ _ Hn Hb), (run_loop_step _ _ Hn' Hb).
      apply IH; [lia|eauto using iteration_well_formed].
    + apply nth_error_None in Hn.
      destruct (run_loop_extends (first ++ later) Hwf)
        as (st2 & tail & H2 & Ht).
      exists st, st2, tail. rewrite run_loop_done by lia. auto.
Qed.

(** X11.  What the pass writes for the first lines of a file does not
    depend on the lines after them: the output for [first ++ later] begins
    with the whole output for [first]. *)
Theorem X11_output_for_first_lines_is_kept (first later : list string) :
  exists fixed_first tail : list string,
    remove_system_health_components first = Some (Ok fixed_first)
    /\ remove_system_health_components (first ++ later)
       = Some (Ok (fixed_first ++ tail)%list).
Proof.
  destruct (@run_loop_prefix first later (length first) initial_state)
    as (st1 & st2 & tail & H1 & H2 & Ht).
  - simpl. lia.
  - exact initial_state_well_formed.
  - exists (fixed_lines st1), tail.
    unfold remove_system_health_components.
    rewrite H1, H2. simpl. rewrite Ht. auto.
Qed.
